(** * Raw Materials Manager: stock, formulas and production runs

    A shallow embedding of the data-access logic of
    [raw_materials_manager.py]: the four SQLite tables, the statements that
    the Stock, Products and Production pages run against them, and the
    arithmetic of the production page ([kilos * (perc / 100.0)] and the
    sufficiency test [available + 1e-9 < required_kg]).

    The widgets are left out; what a dialog hands to a handler (the text of
    an entry after [.strip()], the value of [float(...)], the answer to
    [askyesno]) is an argument of the handler's model, and what the handler
    reports in a message box is its result.

    Quantities are Python floats stored in REAL columns.  The development is
    written once over a small interface of the arithmetic the program uses
    and is read at two instances: [binary64], IEEE 754 double precision as
    Python and SQLite compute it, and [rational], the rationals, which is what
    the program's arithmetic approximates. *)

From Stdlib Require Import Floats QArith Qcanon ZArith String Ascii List Bool Lia Lqa.
Import ListNotations.

Set Implicit Arguments.
Set Warnings "-inexact-float".

(** ** Arithmetic *)

Declare Scope num_scope.
Delimit Scope num_scope with num.

(** The operations and literals of the source: [+], [-], [*], [/], [<],
    [<=], and the constants [0.0], [2], [100.0] and [1e-9]. *)
Class Arith (num : Type) : Type := {
  nadd : num -> num -> num;
  nsub : num -> num -> num;
  nmul : num -> num -> num;
  ndiv : num -> num -> num;
  nltb : num -> num -> bool;
  nleb : num -> num -> bool;
  zero : num;
  two : num;
  hundred : num;
  epsilon : num
}.

Infix "+" := nadd : num_scope.
Infix "-" := nsub : num_scope.
Infix "*" := nmul : num_scope.
Infix "/" := ndiv : num_scope.
Infix "<?" := nltb : num_scope.
Infix "<=?" := nleb : num_scope.

(** Python's [float] and SQLite's REAL: IEEE 754 binary64, rounding to
    nearest, ties to even.  (SQLite stores a NaN as NULL, which the columns
    refuse; no statement below concerns a NaN.) *)
#[export] Instance binary64 : Arith float := {
  nadd := PrimFloat.add;
  nsub := PrimFloat.sub;
  nmul := PrimFloat.mul;
  ndiv := PrimFloat.div;
  nltb := PrimFloat.ltb;
  nleb := PrimFloat.leb;
  zero := 0%float;
  two := 2%float;
  hundred := 100%float;
  epsilon := 1e-9%float
}.

Definition Qcltb (a b : Qc) : bool :=
  match (a ?= b)%Qc with Lt => true | _ => false end.



(** ** Results of a handler *)

Inductive error (num : Type) : Type :=
| NoSelection
| InvalidArgument
| DuplicateKey
| NotFound
| InsufficientStock (shortages : list (string * num * num)).

Arguments NoSelection {num}.
Arguments InvalidArgument {num}.
Arguments DuplicateKey {num}.
Arguments NotFound {num}.

Inductive result (num A : Type) : Type :=
| Ok (a : A)
| Err (e : error num).

Arguments Ok {num A} a.
Arguments Err {num A} e.

(** ** The database *)

Section Store.

Context {num : Type} {A : Arith num}.
Local Open Scope string_scope.
Local Open Scope list_scope.
Local Open Scope num_scope.

(** Rows of [ingredients], [products], [product_ingredients] and
    [productions], with the columns of [init_db]. *)
Record ingredient : Type := {
  ing_id : Z;
  ing_name : string;
  qty_kg : num;
  supplier : string
}.

Record product : Type := {
  prod_id : Z;
  prod_name : string
}.

Record product_ingredient : Type := {
  pi_id : Z;
  pi_product_id : Z;
  ingredient_name : string;
  percentage : num
}.

Record production : Type := {
  production_id : Z;
  product_id : Z;
  product_name : string;
  kilos_produced : num;
  produced_at : string;
  batch_number : string
}.

Record db : Type := {
  ingredients : list ingredient;
  products : list product;
  product_ingredients : list product_ingredient;
  productions : list production
}.

Definition set_ingredients (d : db) (l : list ingredient) : db :=
  {| ingredients := l; products := products d;
     product_ingredients := product_ingredients d; productions := productions d |}.

Definition set_productions (d : db) (l : list production) : db :=
  {| ingredients := ingredients d; products := products d;
     product_ingredients := product_ingredients d; productions := l |}.

(** The rowid SQLite gives to a row inserted into an [INTEGER PRIMARY KEY]
    table without an explicit id: one more than the largest in use, 1 in an
    empty table. *)
Definition next_rowid (ids : list Z) : Z :=
  fold_right Z.max 0%Z ids + 1.

(** [MAX_ROWS]: the number of ingredient rows of the product editor. *)
Definition MAX_ROWS : nat := 30.

(** *** Queries *)

(** [SELECT qty_kg FROM ingredients WHERE name=?] and [fetchone].  The
    column has the default BINARY collation: names are compared byte by
    byte. *)
Definition select_qty (d : db) (name : string) : option num :=
  option_map qty_kg (find (fun r => ing_name r =? name) (ingredients d)).

(** [available = row[0] if row else 0.0] *)
Definition available (d : db) (ing : string) : num :=
  match select_qty d ing with
  | Some q => q
  | None => zero
  end.

(** The dictionary [avail] of [check_requirements], filled by
    [avail[name] = qty] over [SELECT name, qty_kg FROM ingredients]. *)
Definition dict : Type := string -> option num.

Definition dict_set (m : dict) (k : string) (v : num) : dict :=
  fun k' => if k' =? k then Some v else m k'.

Definition avail_of (d : db) : dict :=
  fold_left (fun m r => dict_set m (ing_name r) (qty_kg r)) (ingredients d)
            (fun _ => None).

(** [avail.get(ing, 0.0)] *)
Definition dict_get (m : dict) (k : string) (default : num) : num :=
  match m k with
  | Some v => v
  | None => default
  end.

(** [SELECT id FROM products WHERE name=?] and [fetchone]. *)
Definition select_product_id (d : db) (name : string) : option Z :=
  option_map prod_id (find (fun p => prod_name p =? name) (products d)).

(** [SELECT ingredient_name, percentage FROM product_ingredients WHERE
    product_id=?] *)
Definition select_formula (d : db) (pid : Z) : list (string * num) :=
  map (fun r => (ingredient_name r, percentage r))
      (filter (fun r => (pi_product_id r =? pid)%Z) (product_ingredients d)).

(** [SELECT ... FROM productions WHERE id=?] and [fetchone]. *)
Definition select_production (d : db) (pid : Z) : option production :=
  find (fun r => (production_id r =? pid)%Z) (productions d).

(** *** Stock page *)

(** [StockFrame.add_ingredient] once the dialog has returned
    [(name, qty, supplier)]: the INSERT, which the UNIQUE constraint on
    [name] refuses with [sqlite3.IntegrityError] when a row has that name. *)
Definition add_ingredient (d : db) (name : string) (qty : num) (sup : string)
  : result num unit * db :=
  if existsb (fun r => ing_name r =? name) (ingredients d)
  then (Err DuplicateKey, d)
  else (Ok tt,
        set_ingredients d
          (ingredients d ++
           [{| ing_id := next_rowid (map ing_id (ingredients d));
               ing_name := name; qty_kg := qty; supplier := sup |}])).

(** [UPDATE ingredients SET qty_kg = qty_kg + ? WHERE name = ?] *)
Definition credit (rows : list ingredient) (name : string) (amount : num)
  : list ingredient :=
  map (fun r => if ing_name r =? name
                then {| ing_id := ing_id r; ing_name := ing_name r;
                        qty_kg := qty_kg r + amount; supplier := supplier r |}
                else r) rows.

(** [UPDATE ingredients SET qty_kg = qty_kg - ? WHERE name=?] *)
Definition debit (rows : list ingredient) (name : string) (amount : num)
  : list ingredient :=
  map (fun r => if ing_name r =? name
                then {| ing_id := ing_id r; ing_name := ing_name r;
                        qty_kg := qty_kg r - amount; supplier := supplier r |}
                else r) rows.

(** [StockFrame.restock_selected] with the answer [ans] of
    [askfloat(..., minvalue=0.0)]; the dialog does not return a value below
    its [minvalue]. *)
Definition restock_selected (d : db) (name : string) (ans : num)
  : result num unit * db :=
  if ans <? zero then (Err InvalidArgument, d)
  else (Ok tt, set_ingredients d (credit (ingredients d) name ans)).

(** [StockFrame.edit_selected]:
    [UPDATE ingredients SET qty_kg=?, supplier=? WHERE name=?] *)
Definition edit_selected (d : db) (name : string) (newqty : num) (newsup : string)
  : db :=
  set_ingredients d
    (map (fun r => if ing_name r =? name
                   then {| ing_id := ing_id r; ing_name := ing_name r;
                           qty_kg := newqty; supplier := newsup |}
                   else r) (ingredients d)).

(** [StockFrame.delete_selected]: [DELETE FROM ingredients WHERE name=?] *)
Definition delete_selected (d : db) (name : string) : db :=
  set_ingredients d
    (filter (fun r => negb (ing_name r =? name)) (ingredients d)).

(** *** Products page *)

(** The loop of [ProductEditor.on_save] over [self.rows]: a row whose
    ingredient text is empty is skipped, a percentage [<= 0] stops the save
    with an error, the others are collected in order. *)
Fixpoint collect_items (rows : list (string * num)) : option (list (string * num)) :=
  match rows with
  | [] => Some []
  | (ing, perc) :: rest =>
      if ing =? "" then collect_items rest
      else if perc <=? zero then None
      else option_map (cons (ing, perc)) (collect_items rest)
  end.

(** [INSERT INTO product_ingredients(product_id, ingredient_name,
    percentage)] for each item, in order. *)
Definition insert_formula (rows : list product_ingredient) (pid : Z)
    (items : list (string * num)) : list product_ingredient :=
  fold_left
    (fun acc item =>
       acc ++ [{| pi_id := next_rowid (map pi_id acc); pi_product_id := pid;
                  ingredient_name := fst item; percentage := snd item |}])
    items rows.

(** [ProductEditor.on_save].  [pid] is [self.product_id]: [None] for a new
    product.  A UNIQUE violation on the product name ends the handler with
    nothing committed. *)
Definition on_save (d : db) (pid : option Z) (name : string)
    (rows : list (string * num)) : result num unit * db :=
  if name =? "" then (Err InvalidArgument, d)
  else
    match collect_items rows with
    | None => (Err InvalidArgument, d)
    | Some [] => (Err InvalidArgument, d)
    | Some items =>
        match pid with
        | None =>
            if existsb (fun p => prod_name p =? name) (products d)
            then (Err DuplicateKey, d)
            else
              let new_id := next_rowid (map prod_id (products d)) in
              (Ok tt,
               {| ingredients := ingredients d;
                  products := products d ++ [{| prod_id := new_id; prod_name := name |}];
                  product_ingredients :=
                    insert_formula (product_ingredients d) new_id items;
                  productions := productions d |})
        | Some id =>
            if existsb (fun p => (prod_id p =? id)%Z) (products d)
               && existsb (fun p => (prod_name p =? name) && negb (prod_id p =? id)%Z)
                          (products d)
            then (Err DuplicateKey, d)
            else
              (Ok tt,
               {| ingredients := ingredients d;
                  products :=
                    map (fun p => if (prod_id p =? id)%Z
                                  then {| prod_id := prod_id p; prod_name := name |}
                                  else p) (products d);
                  product_ingredients :=
                    insert_formula
                      (filter (fun r => negb (pi_product_id r =? id)%Z)
                              (product_ingredients d))
                      id items;
                  productions := productions d |})
        end
    end.

(** [ProductsFrame.delete_product] after the user has agreed. *)
Definition delete_product (d : db) (pid : Z) : db :=
  {| ingredients := ingredients d;
     products := filter (fun p => negb (prod_id p =? pid)%Z) (products d);
     product_ingredients :=
       filter (fun r => negb (pi_product_id r =? pid)%Z) (product_ingredients d);
     productions := productions d |}.

(** *** Production page *)

(** [required_kg = kilos * (perc / 100.0)] *)
Definition required_kg (kilos perc : num) : num := kilos * (perc / hundred).

(** [available_kg + 1e-9 < required_kg] *)
Definition insufficient (available_kg required : num) : bool :=
  available_kg + epsilon <? required.

(** A line of the requirements table: [self.requirements] holds
    [(ing, required_kg, available_kg)], the tree row carries the tag
    ['insufficient']. *)
Record requirement : Type := {
  req_ing : string;
  req_required : num;
  req_available : num;
  req_insufficient : bool
}.

(** [ProductionFrame.check_requirements] with [sel] the text of the product
    combobox and [kilos] the value of the kilos entry.  It writes nothing to
    the database: the database it hands back is the one it was given. *)
Definition check_requirements (d : db) (sel : string) (kilos : num)
  : result num (list requirement) * db :=
  if sel =? "" then (Err NoSelection, d)
  else
    match select_product_id d sel with
    | None => (Err NotFound, d)
    | Some pid =>
        let items := select_formula d pid in
        let avail := avail_of d in
        (Ok (map (fun item =>
                    let required := required_kg kilos (snd item) in
                    let available_kg := dict_get avail (fst item) zero in
                    {| req_ing := fst item; req_required := required;
                       req_available := available_kg;
                       req_insufficient := insufficient available_kg required |})
                 items),
         d)
    end.

(** The first loop of [confirm_production]: the list [shortages]. *)
Fixpoint shortages_of (d : db) (kilos : num) (items : list (string * num))
  : list (string * num * num) :=
  match items with
  | [] => []
  | (ing, perc) :: rest =>
      let required := required_kg kilos perc in
      let avail := available d ing in
      if insufficient avail required
      then (ing, required, avail) :: shortages_of d kilos rest
      else shortages_of d kilos rest
  end.

(** The second loop of [confirm_production]: one UPDATE per formula row. *)
Definition debit_all (rows : list ingredient) (kilos : num)
    (items : list (string * num)) : list ingredient :=
  fold_left (fun acc item => debit acc (fst item) (required_kg kilos (snd item)))
            items rows.

(** The loop of [delete_production]: one UPDATE per formula row. *)
Definition credit_all (rows : list ingredient) (kilos : num)
    (items : list (string * num)) : list ingredient :=
  fold_left (fun acc item => credit acc (fst item) (required_kg kilos (snd item)))
            items rows.

(** [ProductionFrame.confirm_production].  [date] and [batch] are the
    answers of the two dialogs after stripping.  The result carries the id
    of the inserted production row. *)
Definition confirm_production (d : db) (sel : string) (kilos : num)
    (date batch : string) : result num Z * db :=
  if sel =? "" then (Err NoSelection, d)
  else
    match select_product_id d sel with
    | None => (Err NotFound, d)
    | Some pid =>
        let items := select_formula d pid in
        match shortages_of d kilos items with
        | (_ :: _) as shortages => (Err (InsufficientStock shortages), d)
        | [] =>
            let new_id := next_rowid (map production_id (productions d)) in
            (Ok new_id,
             {| ingredients := debit_all (ingredients d) kilos items;
                products := products d;
                product_ingredients := product_ingredients d;
                productions :=
                  productions d ++
                  [{| production_id := new_id; product_id := pid;
                      product_name := sel; kilos_produced := kilos;
                      produced_at := date; batch_number := batch |}] |})
        end
    end.

(** [ProductionFrame.delete_production] for the production id [prod_id] of
    the selected history line; [yes] is the answer to [askyesno]. *)
Definition delete_production (d : db) (prod_id : Z) (yes : bool)
  : result num unit * db :=
  match select_production d prod_id with
  | None => (Err NotFound, d)
  | Some rec =>
      if negb yes then (Ok tt, d)
      else
        let items := select_formula d (product_id rec) in
        (Ok tt,
         {| ingredients := credit_all (ingredients d) (kilos_produced rec) items;
            products := products d;
            product_ingredients := product_ingredients d;
            productions :=
              filter (fun r => negb (production_id r =? prod_id)%Z) (productions d) |})
  end.

End Store.

Arguments ingredient : clear implicits.
Arguments product_ingredient : clear implicits.
Arguments production : clear implicits.
Arguments db : clear implicits.
Arguments requirement : clear implicits.
Arguments dict : clear implicits.

(** ** The Formula Resolver of the specification *)

(** [resolve(product, targetQuantityKg)]: for each formula row the
    ingredient and [targetQuantityKg * (percentage / 100)]. *)
Definition resolve {num : Type} {A : Arith num}
    (formula : list (string * num)) (targetQuantityKg : num)
  : list (string * num) :=
  map (fun row => (fst row, (targetQuantityKg * (snd row / hundred))%num)) formula.

(** Case-insensitive comparison of names, as [COLLATE NOCASE] and
    [str.lower] fold the ASCII letters. *)
Definition lower_ascii (c : ascii) : ascii :=
  let n := nat_of_ascii c in
  if (65 <=? n)%nat && (n <=? 90)%nat then ascii_of_nat (n + 32) else c.

Fixpoint lower (s : string) : string :=
  match s with
  | EmptyString => EmptyString
  | String c rest => String (lower_ascii c) (lower rest)
  end.

Definition nocase_eqb (a b : string) : bool := String.eqb (lower a) (lower b).

(** No row of the table has the name. *)
Definition absent {num : Type} (rows : list (ingredient num)) (name : string) : Prop :=
  forall r, In r rows -> ing_name r <> name.

(** ** Row-wise reading of the two UPDATE loops *)

Definition set_qty {num : Type} (r : ingredient num) (q : num) : ingredient num :=
  {| ing_id := ing_id r; ing_name := ing_name r; qty_kg := q; supplier := supplier r |}.

(** What the debit loop of [confirm_production] leaves in a row named
    [name] that held [q]. *)
Definition debited {num : Type} {A : Arith num} (name : string) (q kilos : num)
    (items : list (string * num)) : num :=
  fold_left (fun q item =>
               if String.eqb name (fst item)
               then (q - required_kg kilos (snd item))%num else q)
            items q.

(** What the credit loop of [delete_production] leaves in a row named
    [name] that held [q]. *)
Definition credited {num : Type} {A : Arith num} (name : string) (q kilos : num)
    (items : list (string * num)) : num :=
  fold_left (fun q item =>
               if String.eqb name (fst item)
               then (q + required_kg kilos (snd item))%num else q)
            items q.

(** ** Databases built with the handlers *)

Definition empty_db {num : Type} : db num :=
  {| ingredients := []; products := []; product_ingredients := []; productions := [] |}.

(** The database after adding the ingredient Flour with [qty] kg and saving
    the product Bread with the one formula row (Flour, [perc] %). *)
Definition flour_and_bread {num : Type} {A : Arith num} (qty perc : num) : db num :=
  snd (on_save (snd (add_ingredient empty_db "Flour" qty ""))
               None "Bread" [("Flour"%string, perc)]).

(** ** The workflow as a transition system *)

Section Steps.

Context {num : Type} {A : Arith num}.

(** One use of the application that the stock claims are about: adding an
    ingredient with a quantity that is not negative, restocking, deleting
    an ingredient, saving or deleting a product, confirming a production,
    deleting a production.  With [guarded] the confirmations are those of a
    target quantity that is not negative for a product whose formula names
    no ingredient twice. *)
Inductive step (guarded : bool) : db num -> db num -> Prop :=
| step_add_ingredient d name qty sup d' :
    (zero <=? qty)%num = true ->
    add_ingredient d name qty sup = (Ok tt, d') ->
    step guarded d d'
| step_restock d name ans d' :
    restock_selected d name ans = (Ok tt, d') ->
    step guarded d d'
| step_delete_ingredient d name :
    step guarded d (delete_selected d name)
| step_save d pid name rows d' :
    on_save d pid name rows = (Ok tt, d') ->
    step guarded d d'
| step_delete_product d pid :
    step guarded d (delete_product d pid)
| step_confirm d sel kilos date batch new_id d' :
    confirm_production d sel kilos date batch = (Ok new_id, d') ->
    (guarded = true ->
     (zero <=? kilos)%num = true /\
     forall pid, select_product_id d sel = Some pid ->
                 NoDup (map fst (select_formula d pid))) ->
    step guarded d d'
| step_delete_production d prod_id yes d' :
    delete_production d prod_id yes = (Ok tt, d') ->
    step guarded d d'.


End Steps.


(** ** Further notions for the handlers *)



(** What the UNIQUE and PRIMARY KEY constraints of [init_db] and the checks
    of [ProductEditor.on_save] say of a database. *)
Record schema_ok {num : Type} {A : Arith num} (d : db num) : Prop := {
  ok_ingredient_names : NoDup (map ing_name (ingredients d));
  ok_ingredient_ids : NoDup (map ing_id (ingredients d));
  ok_product_names : NoDup (map prod_name (products d));
  ok_product_ids : NoDup (map prod_id (products d));
  ok_production_ids : NoDup (map production_id (productions d));
  ok_formula_rows :
    forall f, In f (product_ingredients d) ->
              ingredient_name f <> ""%string /\ (percentage f <=? zero)%num = false
}.

(** One use of any handler of the three pages that writes to the database:
    those of [step], with any quantity typed into the ingredient dialog,
    and [StockFrame.edit_selected]. *)
Inductive use {num : Type} {A : Arith num} : db num -> db num -> Prop :=
| use_add_ingredient d name qty sup d' :
    add_ingredient d name qty sup = (Ok tt, d') -> use d d'
| use_edit d name newqty newsup :
    use d (edit_selected d name newqty newsup)
| use_step d d' :
    step false d d' -> use d d'.

Inductive in_use {num : Type} {A : Arith num} : db num -> Prop :=
| in_use_empty : in_use empty_db
| in_use_next d d' : in_use d -> use d d' -> in_use d'.

(** * Properties *)

(** ** Lookups *)

Section Lookups.

Context {num : Type} {A : Arith num}.
Local Open Scope string_scope.
Local Open Scope list_scope.

Lemma absent_cons (r : ingredient num) rows name :
  absent (r :: rows) name <-> ing_name r <> name /\ absent rows name.
Proof.
  unfold absent; split.
  - intro H; split; [apply H; now left | intros r' Hr'; apply H; now right].
  - intros [H1 H2] r' [<- | Hr']; auto.
Qed.

Lemma find_absent (rows : list (ingredient num)) name :
  absent rows name -> find (fun r => ing_name r =? name) rows = None.
Proof.
  induction rows as [|r rows IH]; intro H; simpl; [reflexivity|].
  apply absent_cons in H as [Hr Hrows].
  apply String.eqb_neq in Hr; rewrite Hr; auto.
Qed.

Lemma existsb_absent (rows : list (ingredient num)) name :
  existsb (fun r => ing_name r =? name) rows = false <-> absent rows name.
Proof.
  induction rows as [|r rows IH]; simpl.
  - split; [intros _ r [] | reflexivity].
  - rewrite absent_cons, orb_false_iff, IH, String.eqb_neq; tauto.
Qed.

Lemma fold_dict_set_absent rows name (m : dict num) :
  absent rows name ->
  fold_left (fun m r => dict_set m (ing_name r) (qty_kg r)) rows m name = m name.
Proof.
  revert m; induction rows as [|r rows IH]; intros m H; simpl; [reflexivity|].
  apply absent_cons in H as [Hr Hrows].
  rewrite IH by assumption. unfold dict_set.
  assert (E : (name =? ing_name r) = false) by (apply String.eqb_neq; congruence).
  now rewrite E.
Qed.

Lemma credit_absent (rows : list (ingredient num)) name amount :
  absent rows name -> credit rows name amount = rows.
Proof.
  induction rows as [|r rows IH]; intro H; simpl; [reflexivity|].
  apply absent_cons in H as [Hr Hrows].
  apply String.eqb_neq in Hr; rewrite Hr. f_equal; auto.
Qed.


(** The list [shortages] is the formula filtered by the sufficiency test. *)
Lemma shortages_of_filter (d : db num) kilos items :
  shortages_of d kilos items =
  map (fun item => (fst item, required_kg kilos (snd item), available d (fst item)))
      (filter (fun item => insufficient (available d (fst item))
                                        (required_kg kilos (snd item))) items).
Proof.
  induction items as [|[ing perc] items IH]; simpl; [reflexivity|].
  destruct (insufficient _ _); simpl; now rewrite IH.
Qed.

Lemma shortages_of_nil (d : db num) kilos items :
  shortages_of d kilos items = [] <->
  forall item, In item items ->
    insufficient (available d (fst item)) (required_kg kilos (snd item)) = false.
Proof.
  induction items as [|[ing perc] items IH]; simpl.
  - split; [intros _ ? [] | reflexivity].
  - destruct (insufficient (available d ing) (required_kg kilos perc)) eqn:E.
    + split; [discriminate|]. intro H. specialize (H (ing, perc) (or_introl eq_refl)).
      simpl in H. congruence.
    + rewrite IH. split.
      * intros H item [<- | Hin]; auto.
      * intros H item Hin; apply H; now right.
Qed.

End Lookups.

(** ** Properties that hold for every arithmetic *)

Section Workflow.

Context {num : Type} {A : Arith num}.
Local Open Scope string_scope.
Local Open Scope list_scope.

Lemma confirm_production_found (d : db num) sel kilos date batch pid :
  sel <> "" -> select_product_id d sel = Some pid ->
  confirm_production d sel kilos date batch =
  match shortages_of d kilos (select_formula d pid) with
  | (_ :: _) as shortages => (Err (InsufficientStock shortages), d)
  | [] =>
      let new_id := next_rowid (map production_id (productions d)) in
      (Ok new_id,
       {| ingredients := debit_all (ingredients d) kilos (select_formula d pid);
          products := products d;
          product_ingredients := product_ingredients d;
          productions :=
            productions d ++
            [{| production_id := new_id; product_id := pid;
                product_name := sel; kilos_produced := kilos;
                produced_at := date; batch_number := batch |}] |})
  end.
Proof.
  intros Hsel Hpid. unfold confirm_production.
  apply String.eqb_neq in Hsel. rewrite Hsel, Hpid. reflexivity.
Qed.

(** C1: when some formula ingredient is insufficient, [confirm_production]
    fails with [InsufficientStock] carrying every insufficient ingredient
    with its required and available quantity, in formula order, and the
    database it leaves is the one it was given. *)
Theorem confirm_insufficient_is_all_or_nothing
    (d : db num) sel kilos date batch pid :
  sel <> "" ->
  select_product_id d sel = Some pid ->
  (exists item, In item (select_formula d pid) /\
     insufficient (available d (fst item)) (required_kg kilos (snd item)) = true) ->
  confirm_production d sel kilos date batch =
  (Err (InsufficientStock
          (map (fun item => (fst item, required_kg kilos (snd item),
                             available d (fst item)))
               (filter (fun item => insufficient (available d (fst item))
                                                 (required_kg kilos (snd item)))
                       (select_formula d pid)))),
   d).
Proof.
  intros Hsel Hpid [item [Hin Hshort]].
  rewrite (confirm_production_found d kilos date batch Hsel Hpid).
  rewrite <- shortages_of_filter.
  destruct (shortages_of d kilos (select_formula d pid)) eqn:E; [|reflexivity].
  exfalso. rewrite shortages_of_nil in E. rewrite (E item Hin) in Hshort. discriminate.
Qed.

(** C5: the requirements that [check_requirements] lists and the amounts
    that [confirm_production] tests and debits are those of [resolve]:
    row by row the ingredient and [kilos * (percentage / 100)]; computing
    them leaves the database as it was. *)
Theorem resolve_is_required_per_row (d : db num) sel kilos pid :
  (forall formula i ing perc,
      nth_error formula i = Some (ing, perc) ->
      nth_error (resolve formula kilos) i = Some (ing, (kilos * (perc / hundred))%num))
  /\ (forall formula, length (resolve formula kilos) = length formula)
  /\ (sel <> "" -> select_product_id d sel = Some pid ->
      exists rows,
        check_requirements d sel kilos = (Ok rows, d) /\
        map (fun r => (req_ing r, req_required r)) rows =
        resolve (select_formula d pid) kilos)
  /\ (forall rows formula,
        debit_all rows kilos formula =
        fold_left (fun acc row => debit acc (fst row) (snd row))
                  (resolve formula kilos) rows).
Proof.
  repeat split.
  - intros formula i ing perc H. unfold resolve.
    rewrite nth_error_map, H. reflexivity.
  - intro formula. apply length_map.
  - intros Hsel Hpid. unfold check_requirements.
    apply String.eqb_neq in Hsel. rewrite Hsel, Hpid.
    eexists; split; [reflexivity|].
    unfold resolve. rewrite map_map. reflexivity.
  - intros rows formula. revert rows. unfold debit_all, resolve.
    induction formula as [|row formula IH]; intro rows; simpl; [reflexivity|].
    apply IH.
Qed.

(** C8: an ingredient name that no row of [ingredients] carries has
    availability [0.0], both from the dictionary of [check_requirements]
    and from the query of [confirm_production]. *)
Theorem available_of_missing_is_zero (d : db num) ing :
  absent (ingredients d) ing ->
  available d ing = zero /\
  dict_get (avail_of d) ing zero = zero /\
  (forall sel kilos rows row,
      check_requirements d sel kilos = (Ok rows, d) ->
      In row rows -> req_ing row = ing -> req_available row = zero) /\
  (forall kilos items req av,
      In (ing, req, av) (shortages_of d kilos items) -> av = zero).
Proof.
  intro H.
  assert (Hav : available d ing = zero).
  { unfold available, select_qty. now rewrite (find_absent H). }
  assert (Hdict : dict_get (avail_of d) ing zero = zero).
  { unfold dict_get, avail_of. now rewrite (fold_dict_set_absent _ H). }
  repeat split; try assumption.
  - intros sel kilos rows row Hc Hin Hname. unfold check_requirements in Hc.
    destruct (sel =? ""); [discriminate|].
    destruct (select_product_id d sel); [|discriminate].
    injection Hc as <-. apply in_map_iff in Hin as [item [<- _]].
    simpl in *. subst ing. exact Hdict.
  - intros kilos items req av Hin. rewrite shortages_of_filter in Hin.
    apply in_map_iff in Hin as [item [E _]]. injection E as E1 E2 E3.
    subst. exact Hav.
Qed.

Lemma credit_all_nil (rows : list (ingredient num)) kilos :
  credit_all rows kilos [] = rows.
Proof. reflexivity. Qed.

(** C10: deleting a production whose product id has no formula rows
    succeeds, removes the record and leaves [ingredients] as it was; and an
    UPDATE that credits a name no row carries changes nothing. *)
Theorem delete_production_without_formula (d : db num) prod_id rec :
  select_production d prod_id = Some rec ->
  select_formula d (product_id rec) = [] ->
  delete_production d prod_id true =
  (Ok tt,
   set_productions d
     (filter (fun r => negb (production_id r =? prod_id)%Z) (productions d)))
  /\ ingredients (snd (delete_production d prod_id true)) = ingredients d
  /\ select_production (snd (delete_production d prod_id true)) prod_id = None
  /\ (forall rows name amount, absent rows name -> credit rows name amount = rows).
Proof.
  intros Hrec Hformula.
  assert (E : delete_production d prod_id true =
              (Ok tt, set_productions d
                 (filter (fun r => negb (production_id r =? prod_id)%Z) (productions d)))).
  { unfold delete_production. rewrite Hrec, Hformula. reflexivity. }
  rewrite E. repeat split.
  - unfold select_production, set_productions; simpl.
    destruct (find _ _) eqn:F; [|reflexivity].
    apply find_some in F as [Hin Hid]. apply filter_In in Hin as [_ Hneq].
    rewrite Hid in Hneq. discriminate.
  - intros rows name amount. apply credit_absent.
Qed.

(** Amended C7: uniqueness of ingredient names is by exact comparison.  An
    [add_ingredient] for a name that a row already carries fails with
    [DuplicateKey] and leaves the database as it was; after a successful
    [add_ingredient] a second one of the same name is such a call. *)
Theorem add_ingredient_duplicate_name (d : db num) name qty sup qty' sup' :
  ((exists r, In r (ingredients d) /\ ing_name r = name) ->
   add_ingredient d name qty sup = (Err DuplicateKey, d))
  /\ (absent (ingredients d) name ->
      exists d1, add_ingredient d name qty sup = (Ok tt, d1) /\
                 add_ingredient d1 name qty' sup' = (Err DuplicateKey, d1)).
Proof.
  split.
  - intros [r [Hin Hname]]. unfold add_ingredient.
    assert (E : existsb (fun r => ing_name r =? name) (ingredients d) = true).
    { apply existsb_exists. exists r; split; [assumption|]. now apply String.eqb_eq. }
    now rewrite E.
  - intro Habs. unfold add_ingredient at 1.
    apply existsb_absent in Habs. rewrite Habs.
    eexists; split; [reflexivity|].
    unfold add_ingredient, set_ingredients; simpl.
    rewrite existsb_app; simpl. rewrite String.eqb_refl, orb_true_r. reflexivity.
Qed.

End Workflow.

(** ** The UPDATE loops, row by row *)

Section Rows.

Context {num : Type} {A : Arith num}.
Local Open Scope string_scope.
Local Open Scope list_scope.

Lemma set_qty_same (r : ingredient num) : set_qty r (qty_kg r) = r.
Proof. now destruct r. Qed.

Lemma debit_all_rows (rows : list (ingredient num)) kilos items :
  debit_all rows kilos items =
  map (fun r => set_qty r (debited (ing_name r) (qty_kg r) kilos items)) rows.
Proof.
  revert rows. induction items as [|item items IH]; intro rows.
  - simpl. rewrite <- (map_id rows) at 1. apply map_ext. intro r.
    symmetry; apply set_qty_same.
  - unfold debit_all in *. simpl. rewrite IH. unfold debit. rewrite map_map.
    apply map_ext. intro r. destruct (ing_name r =? fst item); reflexivity.
Qed.

Lemma credit_all_rows (rows : list (ingredient num)) kilos items :
  credit_all rows kilos items =
  map (fun r => set_qty r (credited (ing_name r) (qty_kg r) kilos items)) rows.
Proof.
  revert rows. induction items as [|item items IH]; intro rows.
  - simpl. rewrite <- (map_id rows) at 1. apply map_ext. intro r.
    symmetry; apply set_qty_same.
  - unfold credit_all in *. simpl. rewrite IH. unfold credit. rewrite map_map.
    apply map_ext. intro r. destruct (ing_name r =? fst item); reflexivity.
Qed.

Lemma debited_untouched name (q : num) kilos items :
  ~ In name (map fst items) -> debited name q kilos items = q.
Proof.
  revert q. induction items as [|item items IH]; intros q H; simpl; [reflexivity|].
  simpl in H. unfold debited in *. simpl.
  assert (E : (name =? fst item) = false) by (apply String.eqb_neq; intuition congruence).
  rewrite E. apply IH. tauto.
Qed.

Lemma credited_untouched name (q : num) kilos items :
  ~ In name (map fst items) -> credited name q kilos items = q.
Proof.
  revert q. induction items as [|item items IH]; intros q H; simpl; [reflexivity|].
  simpl in H. unfold credited in *. simpl.
  assert (E : (name =? fst item) = false) by (apply String.eqb_neq; intuition congruence).
  rewrite E. apply IH. tauto.
Qed.

Lemma next_rowid_fresh ids x : In x ids -> (x < next_rowid ids)%Z.
Proof.
  unfold next_rowid. induction ids as [|y ids IH]; simpl; [tauto|].
  intros [-> | H]; [lia|]. specialize (IH H). lia.
Qed.

Lemma find_app_last {X : Type} (p : X -> bool) l x :
  (forall y, In y l -> p y = false) -> p x = true ->
  find p (l ++ [x]) = Some x.
Proof.
  intros Hl Hx. induction l as [|y l IH]; simpl.
  - now rewrite Hx.
  - rewrite (Hl y (or_introl eq_refl)). apply IH.
    intros z Hz. apply Hl. now right.
Qed.

Lemma find_production_fresh (l : list (production num)) rec :
  production_id rec = next_rowid (map production_id l) ->
  find (fun r => (production_id r =? production_id rec)%Z) (l ++ [rec]) = Some rec.
Proof.
  intro Hid. apply find_app_last; [|apply Z.eqb_refl].
  intros r Hr. apply Z.eqb_neq.
  pose proof (next_rowid_fresh (map production_id l) (production_id r)
                (in_map _ _ _ Hr)). lia.
Qed.



End Rows.

(** ** Arithmetic of the rational instance *)

Section RationalArith.

Local Open Scope Qc_scope.








Lemma Qcltb_true a b : Qcltb a b = true <-> a < b.
Proof.
  unfold Qcltb, Qclt, Qccompare. rewrite Qlt_alt.
  destruct (this a ?= this b)%Q; split; congruence.
Qed.




End RationalArith.


(** ** Resolver *)



(** ** Confirm, then delete *)

Lemma debited_cons {num : Type} {A : Arith num} name (q kilos : num) item items :
  debited name q kilos (item :: items) =
  debited name (if String.eqb name (fst item)
                then (q - required_kg kilos (snd item))%num else q) kilos items.
Proof. reflexivity. Qed.






(** ** The sufficiency test *)



(** ** Signs of required amounts over the rationals *)








(** ** The stock invariant of the guarded workflow *)

Section Invariant.

Local Open Scope string_scope.
Local Open Scope list_scope.

Lemma credit_names {num : Type} {A : Arith num} (rows : list (ingredient num)) n a :
  map ing_name (credit rows n a) = map ing_name rows.
Proof.
  unfold credit. rewrite map_map. apply map_ext. intro r.
  now destruct (ing_name r =? n).
Qed.

Lemma set_qty_names {num : Type} (rows : list (ingredient num)) (f : ingredient num -> num) :
  map ing_name (map (fun r => set_qty r (f r)) rows) = map ing_name rows.
Proof. rewrite map_map. now apply map_ext. Qed.

Lemma NoDup_map_filter {X Y : Type} (f : X -> Y) (p : X -> bool) l :
  NoDup (map f l) -> NoDup (map f (filter p l)).
Proof.
  induction l as [|x l IH]; simpl; intro H; [constructor|].
  inversion H as [|? ? Hnot Hl]; subst.
  destruct (p x); simpl; [|auto]. constructor; [|auto].
  intro Hin. apply Hnot. apply in_map_iff in Hin as [y [E Hy]].
  apply filter_In in Hy as [Hy _]. rewrite <- E. now apply in_map.
Qed.






Lemma insert_formula_In {num : Type} (rows : list (product_ingredient num)) pid items f :
  In f (insert_formula rows pid items) ->
  In f rows \/ In (ingredient_name f, percentage f) items.
Proof.
  revert rows. unfold insert_formula.
  induction items as [|item items IH]; simpl; intros rows H; [now left|].
  apply IH in H as [H | H]; [|now right; right].
  apply in_app_iff in H as [H | [<- | []]]; [now left|].
  right; left. now destruct item.
Qed.


End Invariant.

Section GuardedWorkflow.

Local Open Scope string_scope.
Local Open Scope list_scope.











End GuardedWorkflow.

(** ** The claims at concrete databases *)

Section Scenarios.

Local Open Scope string_scope.
Local Open Scope list_scope.

(** Uniqueness of ingredient names is not case-insensitive: after Sugar,
    the name sugar, equal to it up to case, is inserted as a second row. *)
Lemma sugar_twice_up_to_case :
  exists d1 d2 : db float,
    add_ingredient empty_db "Sugar" 10%float "" = (Ok tt, d1) /\
    (exists r, In r (ingredients d1) /\ nocase_eqb (ing_name r) "sugar" = true) /\
    add_ingredient d1 "sugar" 5%float "" = (Ok tt, d2) /\
    map ing_name (ingredients d2) = ["Sugar"; "sugar"].
Proof.
  eexists. eexists. split; [vm_compute; reflexivity|].
  split; [eexists; split; [left; reflexivity | vm_compute; reflexivity]|].
  split; vm_compute; reflexivity.
Qed.


(** A formula that names an ingredient twice passes the test row by row
    and is debited twice: 100 kg of Flour, Bread at 60 % and 60 % Flour,
    100 kg confirmed, -20 kg left. *)
Lemma duplicate_formula_rows_overdraw :
  let d : db float :=
    snd (on_save (snd (add_ingredient empty_db "Flour" 100%float ""))
                 None "Bread" [("Flour", 60%float); ("Flour", 60%float)]) in
  exists d1,
    confirm_production d "Bread" 100%float "" "" = (Ok 1%Z, d1) /\
    available d1 "Flour" = (-20)%float.
Proof. eexists. split; vm_compute; reflexivity. Qed.

(** The scenario of the specification in binary64: 100 kg of Flour, Bread
    at 50 %, 150 kg checked, confirmed and deleted. *)
Lemma flour_and_bread_scenario :
  let d := flour_and_bread 100%float 50%float in
  check_requirements d "Bread" 150%float =
    (Ok [{| req_ing := "Flour"; req_required := 75%float;
            req_available := 100%float; req_insufficient := false |}], d)
  /\ exists d1 d2,
       confirm_production d "Bread" 150%float "" "" = (Ok 1%Z, d1) /\
       available d1 "Flour" = 25%float /\
       map kilos_produced (productions d1) = [150%float] /\
       delete_production d1 1 true = (Ok tt, d2) /\
       available d2 "Flour" = 100%float /\
       productions d2 = [].
Proof.
  split; [vm_compute; reflexivity|].
  eexists. eexists. repeat split; vm_compute; reflexivity.
Qed.

(** At the boundary in binary64: 75 kg available, 75 kg required. *)
Lemma boundary_in_binary64 :
  fst (confirm_production (flour_and_bread 75%float 50%float) "Bread" 150%float "" "")
  = Ok 1%Z.
Proof. vm_compute; reflexivity. Qed.

End Scenarios.

(** ** The theorems at concrete inputs *)

Section Witnesses.

Local Open Scope string_scope.
Local Open Scope list_scope.

(** 10 kg of Flour do not cover the 50 kg that 100 kg of Bread require. *)
Lemma confirm_insufficient_witness :
  confirm_production (flour_and_bread 10%float 50%float) "Bread" 100%float "" "" =
  (Err (InsufficientStock
          (map (fun item => (fst item, required_kg 100%float (snd item),
                             available (flour_and_bread 10%float 50%float) (fst item)))
               (filter (fun item =>
                          insufficient
                            (available (flour_and_bread 10%float 50%float) (fst item))
                            (required_kg 100%float (snd item)))
                       (select_formula (flour_and_bread 10%float 50%float) 1)))),
   flour_and_bread 10%float 50%float).
Proof.
  apply (@confirm_insufficient_is_all_or_nothing float binary64
           (flour_and_bread 10%float 50%float) "Bread" 100%float "" "" 1%Z).
  - discriminate.
  - vm_compute; reflexivity.
  - exists ("Flour", 50%float). split; [left; reflexivity | vm_compute; reflexivity].
Defined.




Lemma resolve_witness :
  exists rows,
    check_requirements (flour_and_bread 100%float 50%float) "Bread" 150%float
    = (Ok rows, flour_and_bread 100%float 50%float) /\
    map (fun r => (req_ing r, req_required r)) rows =
    resolve (select_formula (flour_and_bread 100%float 50%float) 1) 150%float.
Proof.
  apply (proj1 (proj2 (proj2
           (@resolve_is_required_per_row float binary64
              (flour_and_bread 100%float 50%float) "Bread" 150%float 1%Z)))).
  - discriminate.
  - vm_compute; reflexivity.
Defined.

Lemma sugar_twice_witness :
  exists d1 : db float,
    add_ingredient empty_db "Sugar" 10%float "" = (Ok tt, d1) /\
    add_ingredient d1 "Sugar" 5%float "" = (Err DuplicateKey, d1).
Proof.
  apply (proj2 (@add_ingredient_duplicate_name float empty_db
                  "Sugar" 10%float "" 5%float "")).
  intros r [].
Defined.

Lemma available_missing_witness :
  available (flour_and_bread 100%float 50%float) "Sugar" = zero.
Proof.
  apply (@available_of_missing_is_zero float binary64
           (flour_and_bread 100%float 50%float) "Sugar").
  intros r [<- | []]. discriminate.
Defined.


(** The production of 150 kg of Bread after the product has been deleted. *)
Lemma delete_orphan_production_witness :
  ingredients
    (snd (delete_production
            (delete_product
               (snd (confirm_production (flour_and_bread 100%float 50%float)
                                        "Bread" 150%float "" "")) 1)
            1 true))
  = ingredients
      (delete_product
         (snd (confirm_production (flour_and_bread 100%float 50%float)
                                  "Bread" 150%float "" "")) 1).
Proof.
  eapply (@delete_production_without_formula float binary64).
  - vm_compute; reflexivity.
  - vm_compute; reflexivity.
Defined.

End Witnesses.

(** * Further properties of the handlers *)

(** ** Stock page *)

Section StockPage.

Context {num : Type} {A : Arith num}.
Local Open Scope string_scope.
Local Open Scope list_scope.

Lemma available_cons (d : db num) r rows name :
  ingredients d = r :: rows ->
  available d name =
  if ing_name r =? name then qty_kg r else available (set_ingredients d rows) name.
Proof.
  intro E. unfold available, select_qty. rewrite E. cbn [set_ingredients ingredients find].
  now destruct (ing_name r =? name).
Qed.

(** A rewriting of the rows that keeps their names is seen by the query
    through the first row of the name. *)
Lemma find_map_names (f : ingredient num -> ingredient num) rows name :
  (forall r, ing_name (f r) = ing_name r) ->
  find (fun r => ing_name r =? name) (map f rows) =
  option_map f (find (fun r => ing_name r =? name) rows).
Proof.
  intro Hf. induction rows as [|r rows IH]; simpl; [reflexivity|].
  rewrite Hf. now destruct (ing_name r =? name).
Qed.

Lemma find_filter_other (rows : list (ingredient num)) name other :
  other <> name ->
  find (fun r => ing_name r =? other)
       (filter (fun r => negb (ing_name r =? name)) rows) =
  find (fun r => ing_name r =? other) rows.
Proof.
  intro Hneq. induction rows as [|r rows IH]; simpl; [reflexivity|].
  destruct (ing_name r =? name) eqn:E1; simpl.
  - apply String.eqb_eq in E1.
    assert (E2 : (ing_name r =? other) = false)
      by (apply String.eqb_neq; congruence).
    now rewrite E2.
  - now destruct (ing_name r =? other).
Qed.

Lemma filter_absent (rows : list (ingredient num)) name :
  absent rows name ->
  filter (fun r => negb (ing_name r =? name)) rows = rows.
Proof.
  intro H. apply forallb_filter_id. apply forallb_forall. intros r Hr.
  apply negb_true_iff, String.eqb_neq. exact (H r Hr).
Qed.

Lemma find_app_absent (rows : list (ingredient num)) r name :
  absent rows name ->
  find (fun r' => ing_name r' =? name) (rows ++ [r]) =
  if ing_name r =? name then Some r else None.
Proof.
  induction rows as [|r0 rows IH]; intro H; simpl; [reflexivity|].
  apply absent_cons in H as [H0 H]. apply String.eqb_neq in H0. rewrite H0. auto.
Qed.

Lemma find_app_other (rows : list (ingredient num)) r other :
  ing_name r <> other ->
  find (fun r' => ing_name r' =? other) (rows ++ [r]) =
  find (fun r' => ing_name r' =? other) rows.
Proof.
  intro H. apply String.eqb_neq in H.
  induction rows as [|r0 rows IH]; simpl; [now rewrite H|].
  now destruct (ing_name r0 =? other).
Qed.

(** X2: a successful [add_ingredient] is for a name that no row carried;
    afterwards the query for that name gives the quantity entered, the
    query for any other name gives what it gave, the old rows are all
    there, and the other tables are as they were. *)
Theorem add_ingredient_then_available (d d' : db num) name qty sup :
  add_ingredient d name qty sup = (Ok tt, d') ->
  absent (ingredients d) name /\
  available d' name = qty /\
  (forall other, other <> name -> available d' other = available d other) /\
  (forall r, In r (ingredients d) -> In r (ingredients d')) /\
  length (ingredients d') = S (length (ingredients d)) /\
  products d' = products d /\
  product_ingredients d' = product_ingredients d /\
  productions d' = productions d.
Proof.
  unfold add_ingredient. destruct (existsb _ _) eqn:E; [discriminate|].
  intro H. injection H as <-. apply existsb_absent in E.
  split; [exact E|]. unfold available, select_qty.
  cbn [set_ingredients ingredients products product_ingredients productions].
  split; [|split; [|split; [|split]]].
  - rewrite (find_app_absent _ E). cbn [ing_name]. now rewrite String.eqb_refl.
  - intros other Hneq. rewrite find_app_other; [reflexivity|]. cbn [ing_name]. congruence.
  - intros r Hr. apply in_app_iff. now left.
  - rewrite length_app. simpl. lia.
  - repeat split.
Qed.

(** X3: deleting the ingredient just added gives back the database. *)
Theorem add_then_delete_ingredient (d d' : db num) name qty sup :
  add_ingredient d name qty sup = (Ok tt, d') ->
  delete_selected d' name = d.
Proof.
  unfold add_ingredient. destruct (existsb _ _) eqn:E; [discriminate|].
  intro H. injection H as <-. apply existsb_absent in E.
  unfold delete_selected, set_ingredients.
  cbn [ingredients products product_ingredients productions].
  rewrite filter_app, (filter_absent E). cbn [filter ing_name].
  rewrite String.eqb_refl. cbn [negb]. rewrite app_nil_r. now destruct d.
Qed.

(** X4: after [delete_selected] no row carries the name, its availability
    is 0.0 and the name can be added again; the rows of other names, the
    formulas that mention the name and the production records stay. *)
Theorem delete_selected_leaves_formulas (d : db num) name :
  absent (ingredients (delete_selected d name)) name /\
  available (delete_selected d name) name = zero /\
  (forall other, other <> name ->
     available (delete_selected d name) other = available d other) /\
  (forall r, In r (ingredients d) -> ing_name r <> name ->
     In r (ingredients (delete_selected d name))) /\
  product_ingredients (delete_selected d name) = product_ingredients d /\
  (forall pid, select_formula (delete_selected d name) pid = select_formula d pid) /\
  productions (delete_selected d name) = productions d /\
  (forall qty sup, fst (add_ingredient (delete_selected d name) name qty sup) = Ok tt).
Proof.
  assert (Habs : absent (ingredients (delete_selected d name)) name).
  { intros r Hr. cbn [delete_selected set_ingredients ingredients] in Hr.
    apply filter_In in Hr as [_ Hr]. now apply negb_true_iff, String.eqb_neq in Hr. }
  split; [exact Habs|]. split; [|split; [|split; [|split; [|split; [|split]]]]].
  - unfold available, select_qty. now rewrite (find_absent Habs).
  - intros other Hneq. unfold available, select_qty.
    cbn [delete_selected set_ingredients ingredients].
    now rewrite find_filter_other.
  - intros r Hr Hname. cbn [delete_selected set_ingredients ingredients].
    apply filter_In. split; [exact Hr|]. now apply negb_true_iff, String.eqb_neq.
  - reflexivity.
  - reflexivity.
  - reflexivity.
  - intros qty sup. unfold add_ingredient.
    apply existsb_absent in Habs. now rewrite Habs.
Qed.

(** X5: an accepted restock adds the amount to the quantity the query
    gives for the name, when a row carries it, and changes nothing (while
    still reporting success) when none does; no other name and no other
    table is touched. *)
Theorem restock_adds_to_available (d d' : db num) name ans :
  restock_selected d name ans = (Ok tt, d') ->
  (ans <? zero)%num = false /\
  (forall r, In r (ingredients d) -> ing_name r = name ->
     available d' name = (available d name + ans)%num) /\
  (absent (ingredients d) name -> d' = d) /\
  (forall other, other <> name -> available d' other = available d other) /\
  map ing_name (ingredients d') = map ing_name (ingredients d) /\
  products d' = products d /\
  product_ingredients d' = product_ingredients d /\
  productions d' = productions d.
Proof.
  unfold restock_selected. destruct (ans <? zero)%num eqn:E; [discriminate|].
  intro H. injection H as <-. split; [reflexivity|].
  cbn [set_ingredients ingredients products product_ingredients productions].
  split; [|split; [|split; [|split]]].
  - intros r Hr Hname. unfold available, select_qty.
    cbn [set_ingredients ingredients]. unfold credit.
    rewrite find_map_names by (intro r0; now destruct (ing_name r0 =? name)).
    destruct (find _ (ingredients d)) as [r0|] eqn:F.
    + apply find_some in F as [_ F]. cbn [option_map]. rewrite F. reflexivity.
    + pose proof (find_none _ _ F r Hr) as Hf. cbn beta in Hf.
      apply String.eqb_neq in Hf. contradiction.
  - intro Habs. rewrite (credit_absent _ Habs). now destruct d.
  - intros other Hneq. unfold available, select_qty.
    cbn [set_ingredients ingredients]. unfold credit.
    rewrite find_map_names by (intro r0; now destruct (ing_name r0 =? name)).
    destruct (find _ (ingredients d)) as [r0|] eqn:F; [|reflexivity].
    apply find_some in F as [_ F]. apply String.eqb_eq in F.
    assert (E' : (ing_name r0 =? name) = false)
      by (apply String.eqb_neq; congruence).
    cbn [option_map]. now rewrite E'.
  - apply credit_names.
  - repeat split.
Qed.

(** X6: [edit_selected] writes the quantity and the supplier into the row
    of the name and into no other; a second edit of the same name
    overwrites the first. *)
Theorem edit_selected_overwrites (d : db num) name newqty newsup :
  (forall r, In r (ingredients d) -> ing_name r = name ->
     available (edit_selected d name newqty newsup) name = newqty) /\
  (absent (ingredients d) name -> edit_selected d name newqty newsup = d) /\
  (forall other, other <> name ->
     available (edit_selected d name newqty newsup) other = available d other) /\
  map ing_name (ingredients (edit_selected d name newqty newsup)) =
    map ing_name (ingredients d) /\
  (forall qty2 sup2,
     edit_selected (edit_selected d name newqty newsup) name qty2 sup2 =
     edit_selected d name qty2 sup2).
Proof.
  assert (Hnames : forall q s (r0 : ingredient num),
             ing_name (if ing_name r0 =? name
                       then {| ing_id := ing_id r0; ing_name := ing_name r0;
                               qty_kg := q; supplier := s |}
                       else r0) = ing_name r0)
    by (intros q s r0; now destruct (ing_name r0 =? name)).
  split; [|split; [|split; [|split]]].
  - intros r Hr Hname. unfold available, select_qty.
    cbn [edit_selected set_ingredients ingredients].
    rewrite find_map_names by apply Hnames.
    destruct (find _ (ingredients d)) as [r0|] eqn:F.
    + apply find_some in F as [_ F]. cbn [option_map]. now rewrite F.
    + pose proof (find_none _ _ F r Hr) as Hf. cbn beta in Hf.
      apply String.eqb_neq in Hf. contradiction.
  - intro Habs. unfold edit_selected, set_ingredients.
    replace (map _ (ingredients d)) with (ingredients d); [now destruct d|].
    rewrite <- (map_id (ingredients d)) at 1. apply map_ext_in. intros r Hr.
    pose proof (Habs r Hr) as Hneq. apply String.eqb_neq in Hneq. now rewrite Hneq.
  - intros other Hneq. unfold available, select_qty.
    cbn [edit_selected set_ingredients ingredients].
    rewrite find_map_names by apply Hnames.
    destruct (find _ (ingredients d)) as [r0|] eqn:F; [|reflexivity].
    apply find_some in F as [_ F]. apply String.eqb_eq in F.
    assert (E' : (ing_name r0 =? name) = false)
      by (apply String.eqb_neq; congruence).
    cbn [option_map]. now rewrite E'.
  - cbn [edit_selected set_ingredients ingredients]. rewrite map_map.
    apply map_ext. apply Hnames.
  - intros qty2 sup2. unfold edit_selected, set_ingredients.
    cbn [ingredients products product_ingredients productions]. f_equal.
    rewrite map_map. apply map_ext. intro r.
    destruct (ing_name r =? name) eqn:E; cbn [ing_name ing_id]; now rewrite E.
Qed.

End StockPage.

(** ** Products page *)

Section ProductsPage.

Context {num : Type} {A : Arith num}.
Local Open Scope string_scope.
Local Open Scope list_scope.

Lemma collect_items_rows (rows items : list (string * num)) :
  collect_items rows = Some items ->
  (length items <= length rows)%nat /\
  forall item, In item items ->
    In item rows /\ fst item <> "" /\ (snd item <=? zero)%num = false.
Proof.
  revert items.
  induction rows as [|[ing perc] rows IH]; cbn [collect_items]; intros items H.
  - injection H as <-. split; [apply Nat.le_refl | intros ? []].
  - destruct (ing =? "") eqn:E1.
    + destruct (IH items H) as [Hlen Hin]. split; [simpl; lia|].
      intros item Hitem. destruct (Hin item Hitem) as [H1 H2]. split; [now right | exact H2].
    + destruct (perc <=? zero)%num eqn:E2; [discriminate|].
      destruct (collect_items rows) as [items'|]; simpl in H; [|discriminate].
      injection H as <-. destruct (IH items' eq_refl) as [Hlen Hin].
      split; [simpl; lia|]. intros item [<- | Hitem].
      * split; [now left|]. split; [now apply String.eqb_neq | exact E2].
      * destruct (Hin item Hitem) as [H1 H2]. split; [now right | exact H2].
Qed.

(** The formula of a product after the INSERTs of [on_save]: the rows
    that were there, then the items. *)
Lemma select_formula_insert (rows : list (product_ingredient num)) pid items other :
  map (fun r => (ingredient_name r, percentage r))
      (filter (fun r => (pi_product_id r =? other)%Z) (insert_formula rows pid items)) =
  map (fun r => (ingredient_name r, percentage r))
      (filter (fun r => (pi_product_id r =? other)%Z) rows)
  ++ (if (pid =? other)%Z then items else []).
Proof.
  revert rows. unfold insert_formula.
  induction items as [|item items IH]; intro rows; cbn [fold_left].
  - destruct (pid =? other)%Z; now rewrite app_nil_r.
  - rewrite IH, filter_app, map_app. cbn [filter pi_product_id].
    destruct (pid =? other)%Z; cbn [map ingredient_name percentage].
    + rewrite <- app_assoc. now destruct item.
    + now rewrite !app_nil_r.
Qed.

Lemma filter_filter_other (rows : list (product_ingredient num)) id other :
  filter (fun r => (pi_product_id r =? other)%Z)
         (filter (fun r => negb (pi_product_id r =? id)%Z) rows) =
  if (id =? other)%Z then [] else filter (fun r => (pi_product_id r =? other)%Z) rows.
Proof.
  induction rows as [|r rows IH]; cbn [filter]; [now destruct (id =? other)%Z|].
  destruct (pi_product_id r =? id)%Z eqn:E1; cbn [negb filter].
  - apply Z.eqb_eq in E1. rewrite IH, E1.
    destruct (id =? other)%Z; reflexivity.
  - rewrite IH. destruct (pi_product_id r =? other)%Z eqn:E2; [|reflexivity].
    apply Z.eqb_eq in E2. apply Z.eqb_neq in E1.
    assert (E3 : (id =? other)%Z = false) by (apply Z.eqb_neq; congruence).
    now rewrite E3.
Qed.

Local Opaque insert_formula.

(** X7: saving an edited product replaces its formula: the formula read
    back is the list of the rows that had an ingredient name, in order, no
    longer than the editor and with every percentage having passed the
    test; the formulas of the other products, the stock and the production
    records are as they were. *)
Theorem on_save_replaces_formula (d d' : db num) id name rows :
  on_save d (Some id) name rows = (Ok tt, d') ->
  name <> "" /\
  exists items,
    collect_items rows = Some items /\
    select_formula d' id = items /\
    (1 <= length items <= length rows)%nat /\
    (forall item, In item items ->
       In item rows /\ fst item <> "" /\ (snd item <=? zero)%num = false) /\
    (forall other, other <> id -> select_formula d' other = select_formula d other) /\
    map prod_id (products d') = map prod_id (products d) /\
    ingredients d' = ingredients d /\
    productions d' = productions d.
Proof.
  unfold on_save. destruct (name =? "") eqn:En; [discriminate|].
  destruct (collect_items rows) as [items|] eqn:Hc; [|discriminate].
  destruct (collect_items_rows _ Hc) as [Hlen Hitems].
  destruct items as [|item items]; [discriminate|].
  destruct (_ && _); [discriminate|]. intro H. injection H as <-.
  split; [now apply String.eqb_neq|].
  exists (item :: items). split; [reflexivity|].
  unfold select_formula. cbn [product_ingredients products ingredients productions].
  split; [|split; [|split; [|split; [|split; [|split]]]]].
  - rewrite (@select_formula_insert _ id (item :: items) id).
    rewrite filter_filter_other, Z.eqb_refl. reflexivity.
  - split; [simpl; lia | exact Hlen].
  - exact Hitems.
  - intros other Hneq.
    rewrite (@select_formula_insert _ id (item :: items) other), filter_filter_other.
    assert (E : (id =? other)%Z = false) by (apply Z.eqb_neq; congruence).
    rewrite E. apply app_nil_r.
  - rewrite map_map. apply map_ext. intro p. now destruct (prod_id p =? id)%Z.
  - reflexivity.
  - reflexivity.
Qed.

Lemma find_product_app (l : list product) p name :
  (forall q, In q l -> prod_name q <> name) -> prod_name p = name ->
  find (fun q => prod_name q =? name) (l ++ [p]) = Some p.
Proof.
  intros Hl Hp. apply find_app_last; [|now apply String.eqb_eq].
  intros q Hq. apply String.eqb_neq. exact (Hl q Hq).
Qed.

Lemma filter_none {X : Type} (p : X -> bool) l :
  (forall x, In x l -> p x = false) -> filter p l = [].
Proof.
  induction l as [|x l IH]; intro H; simpl; [reflexivity|].
  rewrite (H x (or_introl eq_refl)). apply IH. intros y Hy. apply H. now right.
Qed.

Lemma find_app_first {X : Type} (p : X -> bool) l l' x :
  find p l = Some x -> find p (l ++ l') = Some x.
Proof.
  induction l as [|y l IH]; simpl; [discriminate|].
  now destruct (p y).
Qed.

(** X8: saving a new product gives it an id that no product has and a
    name that none had; the product is then found by its name, the
    formula read back for it is the saved rows (after any rows that a
    missing product of that id had left), and every other product is found
    and resolved as before. *)
Theorem on_save_new_product (d d' : db num) name rows :
  on_save d None name rows = (Ok tt, d') ->
  exists items,
    collect_items rows = Some items /\
    (forall p, In p (products d) ->
       prod_id p <> next_rowid (map prod_id (products d)) /\ prod_name p <> name) /\
    select_product_id d' name = Some (next_rowid (map prod_id (products d))) /\
    select_formula d' (next_rowid (map prod_id (products d))) =
      select_formula d (next_rowid (map prod_id (products d))) ++ items /\
    ((forall f, In f (product_ingredients d) ->
        In (pi_product_id f) (map prod_id (products d))) ->
     select_formula d' (next_rowid (map prod_id (products d))) = items) /\
    (forall other, other <> next_rowid (map prod_id (products d)) ->
       select_formula d' other = select_formula d other) /\
    (forall sel pid, select_product_id d sel = Some pid ->
                     select_product_id d' sel = Some pid) /\
    ingredients d' = ingredients d /\
    productions d' = productions d.
Proof.
  unfold on_save. destruct (name =? "") eqn:En; [discriminate|].
  destruct (collect_items rows) as [items|] eqn:Hc; [|discriminate].
  destruct items as [|item items]; [discriminate|].
  destruct (existsb _ _) eqn:Ex; [discriminate|]. intro H. injection H as <-.
  exists (item :: items). split; [reflexivity|].
  set (new_id := next_rowid (map prod_id (products d))).
  assert (Hfresh : forall p, In p (products d) ->
                             prod_id p <> new_id /\ prod_name p <> name).
  { intros p Hp. split.
    - pose proof (next_rowid_fresh (map prod_id (products d)) (prod_id p)
                    (in_map _ _ _ Hp)). unfold new_id. lia.
    - apply String.eqb_neq.
      destruct (prod_name p =? name) eqn:E; [|reflexivity].
      assert (Ht : existsb (fun p => prod_name p =? name) (products d) = true)
        by (apply existsb_exists; now exists p).
      congruence. }
  split; [exact Hfresh|].
  unfold select_product_id, select_formula.
  cbn [product_ingredients products ingredients productions].
  split; [|split; [|split; [|split; [|split; [|split]]]]].
  - rewrite find_product_app; [reflexivity | | reflexivity].
    intros q Hq. apply (Hfresh q Hq).
  - rewrite (@select_formula_insert _ new_id (item :: items) new_id), Z.eqb_refl.
    reflexivity.
  - intro Href.
    rewrite (@select_formula_insert _ new_id (item :: items) new_id), Z.eqb_refl.
    replace (filter (fun r => (pi_product_id r =? new_id)%Z) (product_ingredients d))
      with (@nil (product_ingredient num)); [reflexivity|].
    symmetry. apply filter_none. intros f Hf. apply Z.eqb_neq.
    pose proof (next_rowid_fresh _ _ (Href f Hf)). unfold new_id. lia.
  - intros other Hneq. rewrite (@select_formula_insert _ new_id (item :: items) other).
    assert (E : (new_id =? other)%Z = false) by (apply Z.eqb_neq; congruence).
    rewrite E. apply app_nil_r.
  - intros sel pid Hsel.
    destruct (find _ (products d)) as [p|] eqn:F; [|discriminate].
    now rewrite (find_app_first _ _ _ F).
  - reflexivity.
  - reflexivity.
Qed.

End ProductsPage.

(** ** Production page *)

Section ProductionPage.

Context {num : Type} {A : Arith num}.
Local Open Scope string_scope.
Local Open Scope list_scope.

(** X1: a handler that reports an error has written nothing: whatever
    the error, the database is the one it was given. *)
Theorem failed_handler_writes_nothing (d d' : db num) (e : error num) :
  (forall name qty sup, add_ingredient d name qty sup = (Err e, d') -> d' = d) /\
  (forall name ans, restock_selected d name ans = (Err e, d') -> d' = d) /\
  (forall pid name rows, on_save d pid name rows = (Err e, d') -> d' = d) /\
  (forall sel kilos, check_requirements d sel kilos = (Err e, d') -> d' = d) /\
  (forall sel kilos date batch,
     confirm_production d sel kilos date batch = (Err e, d') -> d' = d) /\
  (forall prod_id yes, delete_production d prod_id yes = (Err e, d') -> d' = d).
Proof.
  repeat split.
  - intros name qty sup. unfold add_ingredient.
    destruct (existsb _ _); intro H; [now injection H | discriminate].
  - intros name ans. unfold restock_selected.
    destruct (ans <? zero)%num; intro H; [now injection H | discriminate].
  - intros pid name rows. unfold on_save.
    destruct (name =? ""); [intro H; now injection H|].
    destruct (collect_items rows) as [[|item items]|];
      try (intro H; now injection H).
    destruct pid as [id|].
    + destruct (_ && _); intro H; [now injection H | discriminate].
    + destruct (existsb _ _); intro H; [now injection H | discriminate].
  - intros sel kilos. unfold check_requirements.
    destruct (sel =? ""); [intro H; now injection H|].
    destruct (select_product_id d sel); intro H; [discriminate | now injection H].
  - intros sel kilos date batch. unfold confirm_production.
    destruct (sel =? ""); [intro H; now injection H|].
    destruct (select_product_id d sel); [|intro H; now injection H].
    destruct (shortages_of _ _ _); intro H; [discriminate | now injection H].
  - intros prod_id yes. unfold delete_production.
    destruct (select_production d prod_id); [|intro H; now injection H].
    destruct (negb yes); discriminate.
Qed.




Lemma debited_named name (q kilos : num) items item :
  NoDup (map fst items) -> In item items -> fst item = name ->
  debited name q kilos items = (q - required_kg kilos (snd item))%num.
Proof.
  revert q. induction items as [|i items IH]; intros q Hnd Hin Hname; [destruct Hin|].
  simpl in Hnd. inversion Hnd as [|? ? Hnot Hitems]; subst.
  rewrite debited_cons. destruct Hin as [-> | Hin].
  - rewrite String.eqb_refl. now apply debited_untouched.
  - assert (E : (fst item =? fst i) = false).
    { apply String.eqb_neq. intro E. apply Hnot. rewrite <- E. now apply in_map. }
    rewrite E. now apply IH.
Qed.

Lemma set_qty_ids (rows : list (ingredient num)) (f : ingredient num -> num) :
  map ing_id (map (fun r => set_qty r (f r)) rows) = map ing_id rows /\
  map supplier (map (fun r => set_qty r (f r)) rows) = map supplier rows.
Proof. split; rewrite map_map; now apply map_ext. Qed.

(** X11: a confirmation that goes through appends one production record,
    under an id that no record has, with the product, the quantity, the
    date and the batch given; it leaves products and formulas alone, keeps
    the id, name and supplier of every ingredient row and the whole row of
    an ingredient that the formula does not name; and where the formula
    names no ingredient twice, the row of a named ingredient holds its
    quantity less what was required. *)
Theorem confirm_production_effects (d d' : db num) sel kilos date batch new_id :
  confirm_production d sel kilos date batch = (Ok new_id, d') ->
  exists pid,
    select_product_id d sel = Some pid /\
    new_id = next_rowid (map production_id (productions d)) /\
    (forall rec, In rec (productions d) -> production_id rec <> new_id) /\
    productions d' =
      productions d ++
      [{| production_id := new_id; product_id := pid; product_name := sel;
          kilos_produced := kilos; produced_at := date; batch_number := batch |}] /\
    select_production d' new_id =
      Some {| production_id := new_id; product_id := pid; product_name := sel;
              kilos_produced := kilos; produced_at := date; batch_number := batch |} /\
    products d' = products d /\
    product_ingredients d' = product_ingredients d /\
    map ing_id (ingredients d') = map ing_id (ingredients d) /\
    map ing_name (ingredients d') = map ing_name (ingredients d) /\
    map supplier (ingredients d') = map supplier (ingredients d) /\
    (forall r, In r (ingredients d) ->
               ~ In (ing_name r) (map fst (select_formula d pid)) ->
               In r (ingredients d')) /\
    (NoDup (map fst (select_formula d pid)) ->
     forall r item, In r (ingredients d) -> In item (select_formula d pid) ->
                    ing_name r = fst item ->
                    In (set_qty r (qty_kg r - required_kg kilos (snd item))%num)
                       (ingredients d')).
Proof.
  unfold confirm_production. destruct (sel =? ""); [discriminate|].
  destruct (select_product_id d sel) as [pid|]; [|discriminate].
  destruct (shortages_of d kilos (select_formula d pid)); [|discriminate].
  intro H. injection H as <- <-. exists pid.
  set (rec := {| production_id := next_rowid (map production_id (productions d));
                 product_id := pid; product_name := sel; kilos_produced := kilos;
                 produced_at := date; batch_number := batch |}).
  cbn [productions products product_ingredients ingredients].
  rewrite debit_all_rows.
  destruct (set_qty_ids (ingredients d)
              (fun r => debited (ing_name r) (qty_kg r) kilos (select_formula d pid)))
    as [Hids Hsups].
  repeat split; try assumption.
  - intros r Hr.
    pose proof (next_rowid_fresh _ _ (in_map production_id _ _ Hr)). lia.
  - unfold select_production. cbn [productions].
    apply (find_production_fresh (productions d) rec). reflexivity.
  - apply set_qty_names.
  - intros r Hr Hnot. apply in_map_iff. exists r. split; [|exact Hr].
    rewrite debited_untouched by assumption. apply set_qty_same.
  - intros Hnd r item Hr Hitem Hname. apply in_map_iff. exists r.
    split; [|exact Hr]. f_equal. now apply debited_named.
Qed.

End ProductionPage.

(** ** Deleting a production *)

Section DeleteProduction.

Context {num : Type} {A : Arith num}.
Local Open Scope string_scope.
Local Open Scope list_scope.

Lemma find_production_filter_other (l : list (production num)) prod_id other :
  other <> prod_id ->
  find (fun r => (production_id r =? other)%Z)
       (filter (fun r => negb (production_id r =? prod_id)%Z) l) =
  find (fun r => (production_id r =? other)%Z) l.
Proof.
  intro Hneq. induction l as [|r l IH]; simpl; [reflexivity|].
  destruct (production_id r =? prod_id)%Z eqn:E1; simpl.
  - apply Z.eqb_eq in E1.
    assert (E2 : (production_id r =? other)%Z = false)
      by (apply Z.eqb_neq; congruence).
    now rewrite E2.
  - now destruct (production_id r =? other)%Z.
Qed.

Lemma filter_production_length (l : list (production num)) prod_id rec :
  NoDup (map production_id l) ->
  find (fun r => (production_id r =? prod_id)%Z) l = Some rec ->
  S (length (filter (fun r => negb (production_id r =? prod_id)%Z) l)) = length l.
Proof.
  induction l as [|r l IH]; simpl; intros Hnd Hfind; [discriminate|].
  inversion Hnd as [|? ? Hnot Hl]; subst.
  destruct (production_id r =? prod_id)%Z eqn:E; simpl.
  - apply Z.eqb_eq in E. f_equal. f_equal. apply forallb_filter_id.
    apply forallb_forall. intros r' Hr'. apply negb_true_iff, Z.eqb_neq.
    intro E'. apply Hnot. rewrite E, <- E'. now apply in_map.
  - f_equal. now apply IH.
Qed.

(** X12: a deletion that the user confirms removes the record of that id
    and no other (one record, as ids are distinct), credits by the formula
    that the product id has now, keeps the name of every ingredient row and
    the whole row of an ingredient which that formula does not name, and
    cannot be repeated: the same id is then not found.  A deletion that the
    user declines writes nothing. *)
Theorem delete_production_removes_record (d d' : db num) prod_id :
  delete_production d prod_id true = (Ok tt, d') ->
  exists rec,
    select_production d prod_id = Some rec /\
    ingredients d' =
      credit_all (ingredients d) (kilos_produced rec)
                 (select_formula d (product_id rec)) /\
    select_production d' prod_id = None /\
    delete_production d' prod_id true = (Err NotFound, d') /\
    (forall other, other <> prod_id ->
       select_production d' other = select_production d other) /\
    (NoDup (map production_id (productions d)) ->
       S (length (productions d')) = length (productions d)) /\
    products d' = products d /\
    product_ingredients d' = product_ingredients d /\
    map ing_name (ingredients d') = map ing_name (ingredients d) /\
    (forall r, In r (ingredients d) ->
               ~ In (ing_name r) (map fst (select_formula d (product_id rec))) ->
               In r (ingredients d')) /\
    delete_production d prod_id false = (Ok tt, d).
Proof.
  unfold delete_production.
  destruct (select_production d prod_id) as [rec|] eqn:Hrec; [|discriminate].
  cbn [negb]. intro H. injection H as <-. exists rec.
  split; [reflexivity|]. cbn [ingredients products product_ingredients productions].
  split; [reflexivity|].
  assert (Hgone : select_production
                    {| ingredients :=
                         credit_all (ingredients d) (kilos_produced rec)
                                    (select_formula d (product_id rec));
                       products := products d;
                       product_ingredients := product_ingredients d;
                       productions :=
                         filter (fun r => negb (production_id r =? prod_id)%Z)
                                (productions d) |} prod_id = None).
  { unfold select_production. cbn [productions].
    destruct (find _ _) eqn:F; [|reflexivity].
    apply find_some in F as [Hin Hid]. apply filter_In in Hin as [_ Hneq].
    rewrite Hid in Hneq. discriminate. }
  split; [exact Hgone|]. split; [now rewrite Hgone|].
  split; [|split; [|split; [|split; [|split; [|split]]]]].
  - intros other Hneq. unfold select_production. cbn [productions].
    now apply find_production_filter_other.
  - intro Hnd. now apply filter_production_length with rec.
  - reflexivity.
  - reflexivity.
  - rewrite credit_all_rows. apply set_qty_names.
  - intros r Hr Hnot. rewrite credit_all_rows. apply in_map_iff. exists r.
    split; [|exact Hr]. rewrite credited_untouched by assumption. apply set_qty_same.
  - reflexivity.
Qed.

End DeleteProduction.

(** ** The constraints of the schema in every database in use *)

Section Schema.

Context {num : Type} {A : Arith num}.
Local Open Scope string_scope.
Local Open Scope list_scope.

Lemma NoDup_snoc {X : Type} (l : list X) x :
  NoDup l -> ~ In x l -> NoDup (l ++ [x]).
Proof.
  intros Hl Hx. apply NoDup_app; [exact Hl | repeat constructor; intros [] |].
  intros y Hy [<- | []]. contradiction.
Qed.

Lemma next_rowid_not_in ids : ~ In (next_rowid ids) ids.
Proof. intro H. pose proof (next_rowid_fresh _ _ H). lia. Qed.

Lemma map_if_ids (rows : list (ingredient num)) (p : ingredient num -> bool)
    (f : ingredient num -> ingredient num) :
  (forall r, ing_id (f r) = ing_id r /\ ing_name (f r) = ing_name r) ->
  map ing_id (map (fun r => if p r then f r else r) rows) = map ing_id rows /\
  map ing_name (map (fun r => if p r then f r else r) rows) = map ing_name rows.
Proof.
  intro Hf. split; rewrite map_map; apply map_ext; intro r;
    destruct (p r); try reflexivity; apply Hf.
Qed.

Lemma rename_keeps_names_distinct (l : list product) id name :
  NoDup (map prod_id l) -> NoDup (map prod_name l) ->
  (forall p, In p l -> prod_name p = name -> prod_id p = id) ->
  NoDup (map prod_name
           (map (fun p => if (prod_id p =? id)%Z
                          then {| prod_id := prod_id p; prod_name := name |}
                          else p) l)).
Proof.
  induction l as [|p l IH]; simpl; intros Hids Hnames Hname; [constructor|].
  inversion Hids as [|? ? Hid_not Hids']; subst.
  inversion Hnames as [|? ? Hname_not Hnames']; subst.
  constructor; [|apply IH; auto].
  intro Hin. rewrite map_map in Hin. apply in_map_iff in Hin as [q [Hq Hql]].
  destruct (prod_id p =? id)%Z eqn:Ep; destruct (prod_id q =? id)%Z eqn:Eq;
    cbn [prod_name] in Hq.
  - apply Z.eqb_eq in Ep, Eq. apply Hid_not. rewrite Ep, <- Eq. now apply in_map.
  - apply Z.eqb_eq in Ep. apply Z.eqb_neq in Eq. apply Eq.
    apply Hname; [now right | exact Hq].
  - apply Z.eqb_neq in Ep. apply Ep.
    apply Hname; [now left | now symmetry].
  - apply Hname_not. rewrite <- Hq. now apply in_map.
Qed.

Lemma add_ingredient_schema (d d' : db num) name qty sup :
  add_ingredient d name qty sup = (Ok tt, d') -> schema_ok d -> schema_ok d'.
Proof.
  unfold add_ingredient. destruct (existsb _ _) eqn:E; [discriminate|].
  intros H [H1 H2 H3 H4 H5 H6]. injection H as <-. apply existsb_absent in E.
  constructor;
    cbn [set_ingredients ingredients products product_ingredients productions]; auto.
  - rewrite map_app. apply NoDup_snoc; [exact H1|]. cbn [map ing_name].
    intro Hin. apply in_map_iff in Hin as [r [Hr Hin]]. exact (E r Hin Hr).
  - rewrite map_app. apply NoDup_snoc; [exact H2|]. apply next_rowid_not_in.
Qed.

Lemma on_save_schema (d d' : db num) pid name rows :
  on_save d pid name rows = (Ok tt, d') -> schema_ok d -> schema_ok d'.
Proof.
  unfold on_save. destruct (name =? ""); [discriminate|].
  destruct (collect_items rows) as [items|] eqn:Hc; [|discriminate].
  destruct (collect_items_rows _ Hc) as [_ Hitems].
  destruct items as [|item items]; [discriminate|].
  intros H [H1 H2 H3 H4 H5 H6]. destruct pid as [id|].
  - destruct (existsb (fun p => (prod_id p =? id)%Z) (products d)) eqn:E1;
      cbn [andb] in H.
    + destruct (existsb _ (products d)) eqn:E2 in H; [discriminate|].
      injection H as <-.
      constructor; cbn [ingredients products product_ingredients productions]; auto.
      * apply rename_keeps_names_distinct; auto.
        intros p Hp Hname. destruct (prod_id p =? id)%Z eqn:Ep; [now apply Z.eqb_eq|].
        assert (Ht : existsb (fun p => (prod_name p =? name) && negb (prod_id p =? id)%Z)
                             (products d) = true).
        { apply existsb_exists. exists p. split; [exact Hp|].
          apply String.eqb_eq in Hname. now rewrite Hname, Ep. }
        congruence.
      * rewrite map_map. erewrite map_ext; [exact H4|].
        intro p. now destruct (prod_id p =? id)%Z.
      * intros f Hf.
        destruct (@insert_formula_In _ _ _ (item :: items) f Hf) as [Hf' | Hf'].
        -- apply filter_In in Hf' as [Hf' _]. auto.
        -- exact (proj2 (Hitems _ Hf')).
    + injection H as <-.
      assert (Hsame : map (fun p => if (prod_id p =? id)%Z
                                    then {| prod_id := prod_id p; prod_name := name |}
                                    else p) (products d) = products d).
      { rewrite <- (map_id (products d)) at 2. apply map_ext_in. intros p Hp.
        destruct (prod_id p =? id)%Z eqn:Ep; [|reflexivity].
        assert (Ht : existsb (fun p => (prod_id p =? id)%Z) (products d) = true)
          by (apply existsb_exists; now exists p).
        congruence. }
      constructor; cbn [ingredients products product_ingredients productions]; auto.
      * now rewrite Hsame.
      * now rewrite Hsame.
      * intros f Hf.
        destruct (@insert_formula_In _ _ _ (item :: items) f Hf) as [Hf' | Hf'].
        -- apply filter_In in Hf' as [Hf' _]. auto.
        -- exact (proj2 (Hitems _ Hf')).
  - destruct (existsb _ _) eqn:E in H; [discriminate|]. injection H as <-.
    constructor; cbn [ingredients products product_ingredients productions]; auto.
    + rewrite map_app. apply NoDup_snoc; [exact H3|]. cbn [map prod_name].
      intro Hin. apply in_map_iff in Hin as [p [Hname Hp]].
      assert (Ht : existsb (fun p => prod_name p =? name) (products d) = true).
      { apply existsb_exists. exists p. split; [exact Hp | now apply String.eqb_eq]. }
      congruence.
    + rewrite map_app. apply NoDup_snoc; [exact H4|]. apply next_rowid_not_in.
    + intros f Hf.
      destruct (@insert_formula_In _ _ _ (item :: items) f Hf) as [Hf' | Hf']; [auto|].
      exact (proj2 (Hitems _ Hf')).
Qed.

Lemma step_schema (d d' : db num) : step false d d' -> schema_ok d -> schema_ok d'.
Proof.
  intros Hstep Hok. destruct Hstep as
    [d name qty sup d' Hqty H | d name ans d' H | d name | d pid name rows d' H
     | d pid | d sel kilos date batch new_id d' H Hguard | d prod_id yes d' H].
  - eapply add_ingredient_schema; eassumption.
  - unfold restock_selected in H. destruct (ans <? zero)%num; [discriminate|].
    injection H as <-. destruct Hok as [H1 H2 H3 H4 H5 H6].
    destruct (map_if_ids (ingredients d) (fun r => ing_name r =? name)
                (fun r => {| ing_id := ing_id r; ing_name := ing_name r;
                             qty_kg := (qty_kg r + ans)%num; supplier := supplier r |}))
      as [Hids Hnames]; [now split|].
    constructor;
      cbn [set_ingredients ingredients products product_ingredients productions]; auto.
    + unfold credit. now rewrite Hnames.
    + unfold credit. now rewrite Hids.
  - destruct Hok as [H1 H2 H3 H4 H5 H6].
    constructor;
      cbn [delete_selected set_ingredients ingredients products product_ingredients
           productions]; auto; now apply NoDup_map_filter.
  - eapply on_save_schema; eassumption.
  - destruct Hok as [H1 H2 H3 H4 H5 H6].
    constructor;
      cbn [delete_product ingredients products product_ingredients productions]; auto;
      try now apply NoDup_map_filter.
    intros f Hf. apply filter_In in Hf as [Hf _]. auto.
  - unfold confirm_production in H. destruct (sel =? ""); [discriminate|].
    destruct (select_product_id d sel) as [pid|]; [|discriminate].
    destruct (shortages_of _ _ _); [|discriminate]. injection H as <- <-.
    destruct Hok as [H1 H2 H3 H4 H5 H6].
    constructor; cbn [ingredients products product_ingredients productions]; auto.
    + now rewrite debit_all_rows, set_qty_names.
    + rewrite debit_all_rows, map_map. erewrite map_ext; [exact H2 | reflexivity].
    + rewrite map_app. apply NoDup_snoc; [exact H5|]. apply next_rowid_not_in.
  - unfold delete_production in H.
    destruct (select_production d prod_id) as [rec|]; [|discriminate].
    destruct yes; cbn [negb] in H; injection H as <-; [|exact Hok].
    destruct Hok as [H1 H2 H3 H4 H5 H6].
    constructor; cbn [ingredients products product_ingredients productions]; auto.
    + now rewrite credit_all_rows, set_qty_names.
    + rewrite credit_all_rows, map_map. erewrite map_ext; [exact H2 | reflexivity].
    + now apply NoDup_map_filter.
Qed.

(** X9: in every database that the handlers of the three pages reach from
    the empty one, ingredient names, product names and the ids of
    ingredients, products and productions are pairwise distinct, and every
    formula row has an ingredient name and a percentage that passed the
    test of the editor. *)
Theorem schema_holds_in_use (d : db num) : in_use d -> schema_ok d.
Proof.
  induction 1 as [|d d' _ IH Huse].
  - constructor; cbn [empty_db ingredients products product_ingredients productions map];
      try apply NoDup_nil. intros g [].
  - destruct Huse as [d name qty sup d' H | d name newqty newsup | d d' Hstep].
    + eapply add_ingredient_schema; eassumption.
    + destruct IH as [H1 H2 H3 H4 H5 H6].
      destruct (map_if_ids (ingredients d) (fun r => ing_name r =? name)
                  (fun r => {| ing_id := ing_id r; ing_name := ing_name r;
                               qty_kg := newqty; supplier := newsup |}))
        as [Hids Hnames]; [now split|].
      constructor;
        cbn [edit_selected set_ingredients ingredients products product_ingredients
             productions]; auto.
      * now rewrite Hnames.
      * now rewrite Hids.
    + eapply step_schema; eassumption.
Qed.

End Schema.

(** ** Sufficiency and consumption over the rationals *)

Section RationalStock.

Local Open Scope string_scope.
Local Open Scope list_scope.











End RationalStock.

(** ** Deleting a product, and what the editor accepts *)

Section ProductsEdges.

Context {num : Type} {A : Arith num}.
Local Open Scope string_scope.
Local Open Scope list_scope.


(** X17: what the product editor accepts depends on the rows that have an
    ingredient name, and on nothing but their percentages: the save is
    refused as invalid exactly when the product name is empty, when a named
    row has a percentage [<= 0], or when no row is named; otherwise the
    formula is the named rows, in order, whatever their sum and whether or
    not a name occurs twice. *)
Theorem on_save_accepts_named_rows (d : db num) pid name rows :
  (collect_items rows = None <->
   exists row, In row rows /\ fst row <> "" /\ (snd row <=? zero)%num = true) /\
  ((forall row, In row rows -> fst row <> "" -> (snd row <=? zero)%num = false) ->
   collect_items rows = Some (filter (fun row => negb (fst row =? "")) rows)) /\
  (fst (on_save d pid name rows) = Err InvalidArgument <->
   name = "" \/ collect_items rows = None \/ collect_items rows = Some []).
Proof.
  split; [|split].
  - induction rows as [|[ing perc] rows IH]; cbn [collect_items].
    + split; [discriminate | intros [row [[] _]]].
    + destruct (ing =? "") eqn:E1.
      * rewrite IH. apply String.eqb_eq in E1. split.
        -- intros [row [Hin H]]. exists row. split; [now right | exact H].
        -- intros [row [[<- | Hin] [Hname Hperc]]]; [now cbn in Hname|].
           exists row. now split.
      * destruct (perc <=? zero)%num eqn:E2.
        -- split; [|reflexivity]. intros _. exists (ing, perc).
           split; [now left|]. split; [now apply String.eqb_neq | exact E2].
        -- destruct (collect_items rows) as [items|]; cbn [option_map].
           ++ split; [discriminate|].
              intros [row [[<- | Hin] [Hname Hperc]]]; [cbn in Hperc; congruence|].
              assert (Hex : exists row, In row rows /\ fst row <> "" /\
                                        (snd row <=? zero)%num = true)
                by (exists row; now split).
              apply IH in Hex. discriminate.
           ++ split; [|reflexivity]. intros _.
              destruct (proj1 IH eq_refl) as [row [Hin H]].
              exists row. split; [now right | exact H].
  - induction rows as [|[ing perc] rows IH]; intro H; cbn [collect_items filter fst];
      [reflexivity|].
    assert (IH' : collect_items rows =
                  Some (filter (fun row => negb (fst row =? "")) rows))
      by (apply IH; intros row Hin; apply H; now right).
    destruct (ing =? "") eqn:E1; cbn [negb]; [exact IH'|].
    assert (E2 : (perc <=? zero)%num = false)
      by (apply (H (ing, perc) (or_introl eq_refl)); now apply String.eqb_neq).
    now rewrite E2, IH'.
  - unfold on_save. destruct (name =? "") eqn:En.
    + apply String.eqb_eq in En. cbn [fst]. split; [now left | reflexivity].
    + apply String.eqb_neq in En.
      destruct (collect_items rows) as [[|item items]|]; cbn [fst].
      * split; [now right; right | reflexivity].
      * split; [|intros [H | [H | H]]; [contradiction | discriminate | discriminate]].
        destruct pid as [id|].
        -- destruct (_ && _); discriminate.
        -- destruct (existsb _ _); discriminate.
      * split; [now right; left | reflexivity].
Qed.

End ProductsEdges.

(** ** The further properties at concrete inputs *)

Section FurtherWitnesses.

Local Open Scope string_scope.
Local Open Scope list_scope.

Lemma add_ingredient_then_available_witness :
  available (snd (add_ingredient (flour_and_bread 100%float 50%float)
                                 "Sugar" 5%float "")) "Sugar" = 5%float.
Proof.
  refine (proj1 (proj2 (@add_ingredient_then_available float binary64
                          (flour_and_bread 100%float 50%float) _
                          "Sugar" 5%float "" _))).
  vm_compute; reflexivity.
Defined.

Lemma add_then_delete_ingredient_witness :
  delete_selected
    (snd (add_ingredient (flour_and_bread 100%float 50%float) "Sugar" 5%float ""))
    "Sugar"
  = flour_and_bread 100%float 50%float.
Proof.
  apply (@add_then_delete_ingredient float
           (flour_and_bread 100%float 50%float) _ "Sugar" 5%float "").
  vm_compute; reflexivity.
Defined.

Lemma restock_adds_to_available_witness :
  available (snd (restock_selected (flour_and_bread 100%float 50%float)
                                   "Flour" 20%float)) "Flour"
  = (available (flour_and_bread 100%float 50%float) "Flour" + 20%float)%num.
Proof.
  refine (proj1 (proj2 (@restock_adds_to_available float binary64
                          (flour_and_bread 100%float 50%float) _
                          "Flour" 20%float _))
                {| ing_id := 1; ing_name := "Flour"; qty_kg := 100%float;
                   supplier := "" |} _ _).
  - vm_compute; reflexivity.
  - left. vm_compute; reflexivity.
  - reflexivity.
Defined.

Lemma on_save_replaces_formula_witness :
  exists items,
    select_formula
      (snd (on_save (flour_and_bread 100%float 50%float) (Some 1%Z) "Bread"
                    [("Flour", 60%float); ("", 0%float)])) 1 = items.
Proof.
  destruct (@on_save_replaces_formula float binary64
              (flour_and_bread 100%float 50%float)
              (snd (on_save (flour_and_bread 100%float 50%float) (Some 1%Z) "Bread"
                            [("Flour", 60%float); ("", 0%float)]))
              1%Z "Bread" [("Flour", 60%float); ("", 0%float)])
    as [_ [items [_ [Hsel _]]]].
  - vm_compute; reflexivity.
  - exists items. exact Hsel.
Defined.

Lemma on_save_new_product_witness :
  exists items,
    collect_items [("Flour", 50%float); ("", 0%float)] = Some items.
Proof.
  destruct (@on_save_new_product float binary64
              (snd (add_ingredient empty_db "Flour" 100%float ""))
              (snd (on_save (snd (add_ingredient empty_db "Flour" 100%float ""))
                            None "Bread" [("Flour", 50%float); ("", 0%float)]))
              "Bread" [("Flour", 50%float); ("", 0%float)])
    as [items [Hc _]].
  - vm_compute; reflexivity.
  - exists items. exact Hc.
Defined.

Lemma schema_holds_in_use_witness :
  schema_ok (flour_and_bread 100%float 50%float).
Proof.
  apply schema_holds_in_use.
  apply in_use_next with (d := snd (add_ingredient empty_db "Flour" 100%float "")).
  - apply in_use_next with (d := empty_db); [constructor|].
    apply use_add_ingredient with (name := "Flour") (qty := 100%float) (sup := "").
    vm_compute; reflexivity.
  - apply use_step.
    apply step_save with (pid := None) (name := "Bread")
                         (rows := [("Flour", 50%float)]).
    vm_compute; reflexivity.
Defined.


Lemma confirm_production_effects_witness :
  exists pid,
    select_product_id (flour_and_bread 100%float 50%float) "Bread" = Some pid.
Proof.
  destruct (@confirm_production_effects float binary64
              (flour_and_bread 100%float 50%float)
              (snd (confirm_production (flour_and_bread 100%float 50%float)
                                       "Bread" 150%float "" ""))
              "Bread" 150%float "" "" 1%Z)
    as [pid [Hpid _]].
  - vm_compute; reflexivity.
  - exists pid. exact Hpid.
Defined.

Lemma delete_production_removes_record_witness :
  exists rec,
    select_production
      (snd (confirm_production (flour_and_bread 100%float 50%float)
                               "Bread" 150%float "" "")) 1 = Some rec.
Proof.
  destruct (@delete_production_removes_record float binary64
              (snd (confirm_production (flour_and_bread 100%float 50%float)
                                       "Bread" 150%float "" ""))
              (snd (delete_production
                      (snd (confirm_production (flour_and_bread 100%float 50%float)
                                               "Bread" 150%float "" ""))
                      1 true))
              1%Z)
    as [rec [Hrec _]].
  - vm_compute; reflexivity.
  - exists rec. exact Hrec.
Defined.




End FurtherWitnesses.
